(** * tsvF2mot: conversion of a force-plate TSV recording to an OpenSim .mot file

    A shallow embedding of [tsvF2mot.py] (Python 2.7) and the properties of
    its row transformation, leg segmentation, text formatting and header
    scanning.

    Layout:
    - [Py]: the Python 2.7 builtins the script calls ([str.split], [str.rjust],
      [str.rstrip], [str.replace], [int], [float], [str], ["%.8f" %]), with
      binary64 floats taken from the Standard Library's [SpecFloat];
    - the script's own functions [pad], [reverse_axis], [scale_axis],
      [shift_axis], and the body of [convert] cut at its comment blocks into
      [remap], [segment], [pad_row], [data_row], [step];
    - [main] over a file store;
    - lemmas and theorems. *)

From Stdlib Require Import ZArith Lia Ascii String.
From Stdlib Require Import Floats.SpecFloat.
From stdpp Require Import base list strings gmap.

Local Open Scope Z_scope.

(** ** Exceptions and the result monad *)

Inductive exn : Set :=
  | IndexError | ValueError | ZeroDivisionError | OverflowError
  | IOError | UnboundLocalError.

Inductive result (A : Type) : Type :=
  | Ok (a : A)
  | Raise (e : exn).
Arguments Ok {A} a.
Arguments Raise {A} e.

Definition bind {A B : Type} (m : result A) (k : A -> result B) : result B :=
  match m with
  | Ok a => k a
  | Raise e => Raise e
  end.

Notation "'let*' x ':=' m 'in' k" := (bind m (fun x => k))
  (at level 10, x name, m at level 200, k at level 200,
   format "'[v' 'let*'  x  ':='  m  'in' '/' k ']'").

Definition is_ok {A : Type} (m : result A) : bool :=
  match m with Ok _ => true | Raise _ => false end.

(** ** Python 2.7 builtins *)

Module Py.

(** *** Strings *)

Definition isspace (c : ascii) : bool := Ascii.is_space c.

Definition isdigit (c : ascii) : bool :=
  match c with
  | "0" | "1" | "2" | "3" | "4" | "5" | "6" | "7" | "8" | "9" => true
  | _ => false
  end%char.

Definition starts_word (s : string) : bool :=
  match s with
  | String c _ => negb (isspace c)
  | EmptyString => false
  end.

(** [s.split()]: the maximal runs of non-whitespace characters. *)
Fixpoint split (s : string) : list string :=
  match s with
  | EmptyString => []
  | String c s' =>
      if isspace c then split s'
      else if starts_word s' then
        match split s' with
        | t :: ts => String c t :: ts
        | [] => [String c ""]
        end
      else String c "" :: split s'
  end.

(** [s.split(sep)] for a one-character separator: never the empty list. *)
Fixpoint split_on (sep : ascii) (s : string) : list string :=
  match s with
  | EmptyString => [""]
  | String c s' =>
      if Ascii.eqb c sep then "" :: split_on sep s'
      else match split_on sep s' with
           | p :: ps => String c p :: ps
           | [] => [String c ""]
           end
  end.

Fixpoint spaces (n : nat) : string :=
  match n with
  | O => ""
  | S n' => String " " (spaces n')
  end.

(** [s.rjust(width)] *)
Definition rjust (s : string) (width : nat) : string :=
  spaces (width - String.length s) +:+ s.

(** [s.rstrip(c)] for a one-character set *)
Fixpoint rstrip (c : ascii) (s : string) : string :=
  match s with
  | EmptyString => ""
  | String a s' =>
      match rstrip c s' with
      | EmptyString => if Ascii.eqb a c then "" else String a ""
      | r => String a r
      end
  end.

Fixpoint lstrip_ws (s : string) : string :=
  match s with
  | String c s' => if isspace c then lstrip_ws s' else s
  | EmptyString => ""
  end.

Fixpoint rstrip_ws (s : string) : string :=
  match s with
  | EmptyString => ""
  | String a s' =>
      match rstrip_ws s' with
      | EmptyString => if isspace a then "" else String a ""
      | r => String a r
      end
  end.

(** [s.strip()] *)
Definition strip (s : string) : string := rstrip_ws (lstrip_ws s).

(** [s[:n]] *)
Fixpoint slice_to (n : nat) (s : string) : string :=
  match n, s with
  | S n', String c s' => String c (slice_to n' s')
  | _, _ => ""
  end.

(** [s[1:]] *)
Definition slice_from1 (s : string) : string :=
  match s with
  | String _ s' => s'
  | EmptyString => ""
  end.

(** [s.replace(old, new)] for a non-empty [old]: occurrences are replaced
    from the left and do not overlap; [skip] counts the characters of a
    matched occurrence that are still to be dropped. *)
Fixpoint replace_go (old new : string) (skip : nat) (s : string) : string :=
  match s with
  | EmptyString => ""
  | String c s' =>
      match skip with
      | S k => replace_go old new k s'
      | O =>
          if String.prefix old s
          then new +:+ replace_go old new (String.length old - 1) s'
          else String c (replace_go old new O s')
      end
  end.

Definition replace (old new s : string) : string := replace_go old new O s.

(** *** Integers *)

Definition digit_char (d : Z) : ascii :=
  match d with
  | 0 => "0" | 1 => "1" | 2 => "2" | 3 => "3" | 4 => "4"
  | 5 => "5" | 6 => "6" | 7 => "7" | 8 => "8" | _ => "9"
  end%char.

Definition digit_val (c : ascii) : Z :=
  match c with
  | "1" => 1 | "2" => 2 | "3" => 3 | "4" => 4 | "5" => 5
  | "6" => 6 | "7" => 7 | "8" => 8 | "9" => 9 | _ => 0
  end%char.

(** The [k] low decimal digits of [n], most significant first. *)
Fixpoint digits_go (k : nat) (n : Z) (acc : string) : string :=
  match k with
  | O => acc
  | S k' => digits_go k' (n / 10) (String (digit_char (n mod 10)) acc)
  end.

Definition dec_fixed (k : nat) (n : Z) : string := digits_go k n "".

Fixpoint drop_zeros (s : string) : string :=
  match s with
  | String c (String _ _ as s') =>
      if Ascii.eqb c "0" then drop_zeros s' else s
  | _ => s
  end.

(** Decimal numeral of [n >= 0], no leading zero. *)
Definition dec (n : Z) : string :=
  drop_zeros (dec_fixed (S (Z.to_nat (Z.log2 n))) n).

(** [str(n)] for an integer *)
Definition str_int (n : Z) : string :=
  if n <? 0 then "-" +:+ dec (- n) else dec n.

Fixpoint all_digits (s : string) : bool :=
  match s with
  | EmptyString => true
  | String c s' => isdigit c && all_digits s'
  end.

Fixpoint digits_val (acc : Z) (s : string) : Z :=
  match s with
  | EmptyString => acc
  | String c s' => digits_val (10 * acc + digit_val c) s'
  end.

Definition nonempty_digits (s : string) : bool :=
  match s with
  | EmptyString => false
  | _ => all_digits s
  end.

(** [int(s)]: optional sign and decimal digits, surrounding whitespace
    ignored. *)
Definition int (s : string) : result Z :=
  let s := strip s in
  match s with
  | String "-" r => if nonempty_digits r then Ok (- digits_val 0 r) else Raise ValueError
  | String "+" r => if nonempty_digits r then Ok (digits_val 0 r) else Raise ValueError
  | _ => if nonempty_digits s then Ok (digits_val 0 s) else Raise ValueError
  end.

(** *** Floats: IEEE 754 binary64 *)

Definition float : Set := spec_float.

Definition prec : Z := 53.
Definition emax : Z := 1024.

Definition fadd : float -> float -> float := SFadd prec emax.
Definition fmul : float -> float -> float := SFmul prec emax.
Definition fdiv : float -> float -> float := SFdiv prec emax.

(** The binary64 nearest to [±m * 10^e] (ties to even), as [strtod] and the
    Python parser compute it for a decimal literal. *)
Definition float_of_decimal (neg : bool) (m e : Z) : float :=
  match m with
  | Zpos p =>
      if 0 <=? e then binary_round prec emax neg (Z.to_pos (Zpos p * 10 ^ e)) 0
      else
        let '(q, e', l) := SFdiv_core_binary prec emax (Zpos p) 0 (10 ^ (- e)) 0 in
        binary_round_aux prec emax neg q e' l
  | _ => S754_zero neg
  end.

(** Conversion of a Python [int]/[long] to [float]. *)
Definition float_of_int (n : Z) : result float :=
  match binary_normalize prec emax n 0 false with
  | S754_infinity _ => Raise OverflowError
  | x => Ok x
  end.

Fixpoint span_digits (s : string) : string * string :=
  match s with
  | String c s' =>
      if isdigit c then let '(d, r) := span_digits s' in (String c d, r)
      else (EmptyString, s)
  | EmptyString => (EmptyString, EmptyString)
  end.

Definition lower (c : ascii) : ascii :=
  let n := nat_of_ascii c in
  if ((65 <=? n)%nat && (n <=? 90)%nat)%bool then ascii_of_nat (n + 32) else c.

Fixpoint lower_str (s : string) : string :=
  match s with
  | EmptyString => ""
  | String c s' => String (lower c) (lower_str s')
  end.

(** The exponent part of a decimal literal: empty, or [e]/[E], an optional
    sign and at least one digit. *)
Definition parse_exponent (s : string) : option Z :=
  match s with
  | EmptyString => Some 0
  | String c r =>
      if (Ascii.eqb c "e" || Ascii.eqb c "E")%bool then
        match r with
        | String "-" ds => if nonempty_digits ds then Some (- digits_val 0 ds) else None
        | String "+" ds => if nonempty_digits ds then Some (digits_val 0 ds) else None
        | _ => if nonempty_digits r then Some (digits_val 0 r) else None
        end
      else None
  end.

(** An unsigned decimal literal [digits [. digits] [exponent]] with at least
    one digit in the mantissa, as the pair (mantissa, decimal exponent). *)
Definition parse_decimal (s : string) : option (Z * Z) :=
  let '(ip, r1) := span_digits s in
  let '(fp, r2) :=
    match r1 with
    | String "." r => span_digits r
    | _ => (EmptyString, r1)
    end in
  match ip +:+ fp with
  | EmptyString => None
  | ds =>
      match parse_exponent r2 with
      | Some e => Some (digits_val 0 ds, e - Z.of_nat (String.length fp))
      | None => None
      end
  end.

Definition parse_unsigned (neg : bool) (s : string) : option float :=
  let l := lower_str s in
  if (String.eqb l "inf" || String.eqb l "infinity")%bool then Some (S754_infinity neg)
  else if String.eqb l "nan" then Some S754_nan
  else match parse_decimal s with
       | Some (m, e) => Some (float_of_decimal neg m e)
       | None => None
       end.

Definition parse_float (s : string) : option float :=
  match strip s with
  | String "-" r => parse_unsigned true r
  | String "+" r => parse_unsigned false r
  | s' => parse_unsigned false s'
  end.

(** [float(s)] *)
Definition float_of_str (s : string) : result float :=
  match parse_float s with
  | Some x => Ok x
  | None => Raise ValueError
  end.

(** The integer nearest to [a / b] for [b > 0], ties to even. *)
Definition div_half_even (a b : Z) : Z :=
  let q := a / b in
  match (2 * (a mod b)) ?= b with
  | Lt => q
  | Gt => q + 1
  | Eq => if Z.even q then q else q + 1
  end.

(** [m * 2^e * 10^k] rounded to an integer. *)
Definition scaled (m : positive) (e k : Z) : Z :=
  div_half_even (Zpos m * 2 ^ Z.max e 0 * 10 ^ Z.max k 0)
                (2 ^ Z.max (- e) 0 * 10 ^ Z.max (- k) 0).

Definition sign_str (neg : bool) : string := if neg then "-" else "".

(** ["%.8f" % x] *)
Definition format_f8 (x : float) : string :=
  match x with
  | S754_nan => "nan"
  | S754_infinity s => sign_str s +:+ "inf"
  | S754_zero s => sign_str s +:+ "0.00000000"
  | S754_finite s m e =>
      let n := scaled m e 8 in
      sign_str s +:+ dec (n / 10 ^ 8) +:+ "." +:+ dec_fixed 8 (n mod 10 ^ 8)
  end.

Fixpoint zeros (n : nat) : string :=
  match n with
  | O => ""
  | S n' => String "0" (zeros n')
  end.

(** Trailing zeros removed; the empty string for an all-zero numeral. *)
Definition rstrip_zeros (s : string) : string := rstrip "0" s.

(** The least [j >= from] (searching at most [fuel] steps) with
    [m * 10^j >= d]. *)
Fixpoint first_scale (fuel : nat) (m d j : Z) : Z :=
  match fuel with
  | O => j
  | S fuel' => if d <=? m * 10 ^ j then j else first_scale fuel' m d (j + 1)
  end.

(** The decimal point position of [m * 2^e]: the [k] with
    [10^(k-1) <= m * 2^e < 10^k]. *)
Definition decpt (m : positive) (e : Z) : Z :=
  if 0 <=? e then Z.of_nat (String.length (dec (Zpos m * 2 ^ e)))
  else
    let d := 2 ^ (- e) in
    if d <=? Zpos m then Z.of_nat (String.length (dec (Zpos m / d)))
    else 1 - first_scale (Z.to_nat (- e)) (Zpos m) d 1.

Definition exponent_str (x : Z) : string :=
  let a := Z.abs x in
  (if x <? 0 then "-" else "+") +:+ (if a <? 10 then "0" else "") +:+ dec a.

(** The layout of the [%g] conversion for the digit string [ds] (no
    trailing zeros) and decimal point position [k], with [.0] added when
    the result would look like an integer. *)
Definition layout_g (precision : Z) (ds : string) (k : Z) : string :=
  if ((k <=? -4) || (precision <? k))%bool then
    slice_to 1 ds
      +:+ (match slice_from1 ds with EmptyString => "" | r => "." +:+ r end)
      +:+ "e" +:+ exponent_str (k - 1)
  else if k <=? 0 then "0." +:+ zeros (Z.to_nat (- k)) +:+ ds
  else if Z.of_nat (String.length ds) <=? k
  then ds +:+ zeros (Z.to_nat k - String.length ds) +:+ ".0"
  else slice_to (Z.to_nat k) ds +:+ "." +:+ substring (Z.to_nat k) (String.length ds) ds.

(** [str(x)] for a float: twelve significant digits ([%.12g]). *)
Definition str (x : float) : string :=
  match x with
  | S754_nan => "nan"
  | S754_infinity s => sign_str s +:+ "inf"
  | S754_zero s => sign_str s +:+ "0.0"
  | S754_finite s m e =>
      let k := decpt m e in
      let n := scaled m e (12 - k) in
      let '(n, k) := if n =? 10 ^ 12 then (10 ^ 11, k + 1) else (n, k) in
      sign_str s +:+ layout_g 12 (rstrip_zeros (dec n)) k
  end.

End Py.

(** ** The script *)

Definition tab : string := String "009" "".
Definition nl : string := String "010" "".

(** The float literals of the script. *)
Definition c_0_001 : Py.float := Py.float_of_decimal false 1 (-3).
Definition c_neg_0_5 : Py.float := Py.float_of_decimal true 5 (-1).
Definition c_0_25 : Py.float := Py.float_of_decimal false 25 (-2).
Definition c_0_0 : Py.float := S754_zero false.
Definition c_1_0 : Py.float := Py.float_of_decimal false 1 0.

(** [pad]: ["%.8f" % float(str_float_value)] *)
Definition pad (str_float_value : string) : result string :=
  let* x := Py.float_of_str str_float_value in
  Ok (Py.format_f8 x).

(** [reverse_axis]: the sign is toggled on the text of the number. *)
Definition reverse_axis (x_data : string) : string :=
  if String.eqb (Py.slice_to 1 x_data) "-" then Py.slice_from1 x_data
  else "-" +:+ x_data.

(** [scale_axis]: [str(float(axis_data) * factor)] *)
Definition scale_axis (axis_data : string) (factor : Py.float) : result string :=
  let* x := Py.float_of_str axis_data in
  Ok (Py.str (Py.fmul x factor)).

(** [shift_axis]: [pad(str(float(axis_data) + shift_ammount))] *)
Definition shift_axis (axis_data : string) (shift_ammount : Py.float) : result string :=
  let* x := Py.float_of_str axis_data in
  pad (Py.str (Py.fadd x shift_ammount)).

(** [l[i]] and [l[i] = v] on a Python list: both raise [IndexError] out of
    range. *)
Definition getitem (l : list string) (i : nat) : result string :=
  match l !! i with
  | Some x => Ok x
  | None => Raise IndexError
  end.

Definition setitem (l : list string) (i : nat) (v : string) : result (list string) :=
  if (i <? length l)%nat then Ok (<[i := v]> l) else Raise IndexError.

Definition zero_tuple : list string := ["0.00000000"; "0.00000000"; "0.00000000"].

(** [l[i], l[j], l[k] = t] for a triple [t] *)
Definition setitem3 (l : list string) (i j k : nat) (t : list string) : result (list string) :=
  match t with
  | [a; b; c] =>
      let* l := setitem l i a in
      let* l := setitem l j b in
      setitem l k c
  | _ => Raise ValueError
  end.

(** [(l[i], l[j], l[k])] *)
Definition getitem3 (l : list string) (i j k : nat) : result (list string) :=
  let* a := getitem l i in
  let* b := getitem l j in
  let* c := getitem l k in
  Ok [a; b; c].

(** The axis remap of one row, lines 293 to 326 of [convert]; [d] is
    [data_string_split]. *)
Definition remap (d : list string) : result (list string) :=
  (* Force Vx, Moment Mx, COP Px scaled *)
  let* x := getitem d 0 in let* v := pad x in let* d := setitem d 0 v in
  let* x := getitem d 3 in let* v := pad x in let* d := setitem d 3 v in
  let* x := getitem d 6 in let* s := scale_axis x c_0_001 in
  let* v := pad s in let* d := setitem d 6 v in
  (* swap Y and Z *)
  let* x := getitem d 2 in let* a := pad x in
  let* x := getitem d 1 in let* b := pad x in
  let* d := setitem d 1 a in let* d := setitem d 2 b in
  let* x := getitem d 5 in let* a := pad x in
  let* x := getitem d 4 in let* b := pad x in
  let* d := setitem d 4 a in let* d := setitem d 5 b in
  let* x := getitem d 7 in let* s := scale_axis (reverse_axis x) c_0_001 in
  let* b := pad s in
  let* d := setitem d 7 "0.00000000" in let* d := setitem d 8 b in
  (* the three tuple assignments of lines 304 to 306 *)
  let* a := getitem d 2 in let* b := getitem d 0 in
  let* d := setitem d 2 a in let* d := setitem d 0 b in
  let* a := getitem d 3 in let* b := getitem d 5 in
  let* d := setitem d 5 a in let* d := setitem d 3 b in
  let* a := getitem d 6 in let* b := getitem d 8 in
  let* d := setitem d 8 a in let* d := setitem d 6 b in
  (* reverse axis *)
  let* x := getitem d 3 in let* d := setitem d 3 (reverse_axis x) in
  let* x := getitem d 6 in let* d := setitem d 6 (reverse_axis x) in
  let* x := getitem d 2 in let* d := setitem d 2 (reverse_axis x) in
  let* x := getitem d 5 in let* d := setitem d 5 (reverse_axis x) in
  let* x := getitem d 8 in let* d := setitem d 8 (reverse_axis x) in
  (* shift axis *)
  let* x := getitem d 0 in let* v := shift_axis x c_neg_0_5 in let* d := setitem d 0 v in
  let* x := getitem d 3 in let* v := shift_axis x c_neg_0_5 in let* d := setitem d 3 v in
  let* x := getitem d 6 in let* v := shift_axis x c_neg_0_5 in let* d := setitem d 6 v in
  let* x := getitem d 2 in let* v := shift_axis x c_0_25 in let* d := setitem d 2 v in
  let* x := getitem d 5 in let* v := shift_axis x c_0_25 in let* d := setitem d 5 v in
  let* x := getitem d 8 in let* v := shift_axis x c_0_25 in setitem d 8 v.

(** The leg segmentation, lines 354 to 403. *)
Definition segment (frame_number dataset_half : Z) (d : list string) : result (list string) :=
  if frame_number <? dataset_half then
    (* right leg data *)
    let* swap_tuple_p := getitem3 d 6 7 8 in
    let* d := setitem3 d 3 4 5 swap_tuple_p in
    let* d := setitem3 d 6 7 8 zero_tuple in
    Ok (((d ++ zero_tuple) ++ zero_tuple) ++ zero_tuple)
  else
    (* left leg data *)
    let* swap_tuple_f := getitem3 d 0 1 2 in
    let* swap_tuple_cop := getitem3 d 6 7 8 in
    let* d := setitem3 d 0 1 2 zero_tuple in
    let* d := setitem3 d 3 4 5 zero_tuple in
    let* d := setitem3 d 6 7 8 swap_tuple_f in
    Ok (((d ++ swap_tuple_cop) ++ zero_tuple) ++ zero_tuple).

(** One turn of the inner padding loop, lines 412 to 422: [x] is a piece of
    the value between dots, [result] the field built so far. *)
Definition pad_piece (result x : string) : string :=
  if String.eqb (Py.slice_to 1 x) "-" then
    if (String.length result <? 1)%nat then result +:+ Py.rjust x 11
    else "-" +:+ result +:+ "." +:+ x
  else if (String.length result <? 1)%nat then result +:+ Py.rjust x 11
  else result +:+ "." +:+ x.

(** The padded field of one value. *)
Definition pad_field (i : string) : string :=
  fold_left pad_piece (Py.split_on "." i) "".

(** The outer padding loop, lines 406 to 426: [final_result]. *)
Definition pad_fields (d : list string) : string :=
  fold_left (fun final_result i => final_result +:+ pad_field i +:+ tab) d "".

(** The output line of one data row, lines 289 to 433. *)
Definition data_row (frame_number dataset_half : Z) (time : Py.float) (i : string)
  : result string :=
  let data_string_split := Py.split i in
  let* d := remap data_string_split in
  let* d := segment frame_number dataset_half d in
  let i := Py.rstrip "009" (pad_fields d) in
  let* t := pad (Py.str time) in
  Ok (Py.rjust t 20 +:+ tab +:+ i +:+ nl).

(** [sep.join(l)] *)
Fixpoint join (sep : string) (l : list string) : string :=
  match l with
  | [] => ""
  | [x] => x
  | x :: l' => x +:+ sep +:+ join sep l'
  end.

(** [s.split(', ')]: split on the two-character separator. *)
Fixpoint split_comma_space (s : string) : list string :=
  match s with
  | EmptyString => [""]
  | String c s' =>
      match split_comma_space s' with
      | p :: ps =>
          if (Ascii.eqb c "," && String.eqb (Py.slice_to 1 s') " ")%bool
          then "" :: Py.slice_from1 p :: ps
          else String c p :: ps
      | [] => [String c ""]
      end
  end.

Definition mot_column_header : string :=
  join tab (split_comma_space
    "   R_ground_force_vx,    R_ground_force_vy,    R_ground_force_vz,    R_ground_force_px,    R_ground_force_py,    R_ground_force_pz,    L_ground_force_vx,    L_ground_force_vy,    L_ground_force_vz,    L_ground_force_px,    L_ground_force_py,    L_ground_force_pz,    R_ground_torque_x,    R_ground_torque_y,    R_ground_torque_z,    L_ground_torque_x,    L_ground_torque_y,    L_ground_torque_z").

(** The local variables of [convert] that live across loop turns, with the
    text written to the output file ([out], one entry per [f.write]) and to
    the console ([console], one entry per [print]). [dataset_half] is
    unbound until the marker line has been seen. *)
Record state : Type := {
  out : list string;
  console : list string;
  header_rows : Z;
  time : Py.float;
  quant : Py.float;
  data_flag : bool;
  frame_number : Z;
  dataset_half : option Z
}.

Definition write (s : state) (text : string) : state :=
  {| out := out s ++ [text]; console := console s; header_rows := header_rows s;
     time := time s; quant := quant s; data_flag := data_flag s;
     frame_number := frame_number s; dataset_half := dataset_half s |}.

Definition print (s : state) (text : string) : state :=
  {| out := out s; console := console s ++ [text]; header_rows := header_rows s;
     time := time s; quant := quant s; data_flag := data_flag s;
     frame_number := frame_number s; dataset_half := dataset_half s |}.

(** [f.write(t)] followed by [print(p)] *)
Definition emit (s : state) (t p : string) : state := print (write s t) p.

(** Lines 246 to 249: the [FREQUENCY] line sets [quant]. *)
Definition scan_frequency (s : state) (i : string) : result state :=
  if String.eqb (Py.slice_to 9 i) "FREQUENCY" then
    let* tok := getitem (Py.split i) 1 in
    let* frequency := Py.int tok in
    let* fr := Py.float_of_int frequency in
    if frequency =? 0 then Raise ZeroDivisionError
    else
      Ok {| out := out s; console := console s; header_rows := header_rows s;
            time := time s; quant := Py.fdiv c_1_0 fr; data_flag := data_flag s;
            frame_number := frame_number s; dataset_half := dataset_half s |}
  else Ok s.

Definition is_marker (i : string) : bool := String.eqb (Py.slice_to 7 i) "Force_X".

(** Lines 252 to 281: the marker line writes the rest of the header. *)
Definition write_header (total_rows : Z) (s : state) (i : string) : state :=
  let n_columns := Z.of_nat (length (Py.split i)) + 1 + 9 in
  let n_columns_str := "nColumns=" +:+ Py.str_int n_columns +:+ nl in
  let n_rows := total_rows - header_rows s in
  let n_rows_str := "nRows=" +:+ Py.str_int n_rows +:+ nl in
  let i := Py.rjust ("time" +:+ tab) 21 +:+ mot_column_header +:+ nl in
  let s := emit s n_rows_str n_rows_str in
  let s := emit s n_columns_str n_columns_str in
  let s := emit s ("inDegrees=yes" +:+ nl) "inDegrees=yes" in
  let s := emit s ("endheader" +:+ nl) "endheader" in
  let s := emit s i i in
  {| out := out s; console := console s; header_rows := header_rows s;
     time := time s; quant := quant s; data_flag := true;
     frame_number := frame_number s; dataset_half := Some (n_rows `div` 2) |}.

(** Lines 286 to 438: a data line is converted, written, and the frame
    counter and the clock advance. *)
Definition write_data (s : state) (i : string) : result state :=
  match dataset_half s with
  | None => Raise UnboundLocalError
  | Some half =>
      let* data_row_str := data_row (frame_number s) half (time s) i in
      let s := write s data_row_str in
      Ok {| out := out s; console := console s; header_rows := header_rows s;
            time := Py.fadd (time s) (quant s); quant := quant s;
            data_flag := data_flag s; frame_number := frame_number s + 1;
            dataset_half := dataset_half s |}
  end.

(** One turn of the loop over [line_data], lines 243 to 438. *)
Definition step (total_rows : Z) (s : state) (i : string) : result state :=
  let s := {| out := out s; console := console s; header_rows := header_rows s + 1;
              time := time s; quant := quant s; data_flag := data_flag s;
              frame_number := frame_number s; dataset_half := dataset_half s |} in
  let* s := scan_frequency s i in
  if is_marker i then Ok (write_header total_rows s i)
  else if negb (data_flag s)
  then Ok (print s ("EXTRA FIELD - NOT WRITTEN TO .mot FILE: " +:+ i))
  else write_data s i.

(** The loop: an exception leaves the file and the console as they were
    before the failing line. *)
Fixpoint run (total_rows : Z) (s : state) (lines : list string) : state * option exn :=
  match lines with
  | [] => (s, None)
  | i :: rest =>
      match step total_rows s i with
      | Ok s' => run total_rows s' rest
      | Raise e => (s, Some e)
      end
  end.

Definition mot_name (filename : string) : string := Py.replace ".tsv" ".mot" filename.

Definition init (filename : string) : state :=
  {| out := [mot_name filename +:+ nl; "version=1" +:+ nl];
     console := [mot_name filename; "version=1"];
     header_rows := 0; time := c_0_0; quant := c_0_0; data_flag := false;
     frame_number := 0; dataset_half := None |}.

(** [convert(filename)] on a file whose lines are [line_data]; the input
    file is read a second time at the marker line to count its lines, and
    is taken to be unchanged then (the output goes to another path as soon
    as the name contains [.tsv]). The result is the final state, with the
    exception that ended the conversion, if any. *)
Definition convert (filename : string) (line_data : list string) : state * option exn :=
  match run (Z.of_nat (length line_data)) (init filename) line_data with
  | (s, None) => (print s (mot_name filename +:+ " " +:+ " Done!"), None)
  | (s, Some e) => (s, Some e)
  end.

(** The file store: the lines of each file. *)
Abbreviation files := (gmap string (list string)).

(** [main]: the files are converted in turn; an exception ends the batch. *)
Fixpoint main (fs : files) (log : list string) (input : list string)
  : files * list string * option exn :=
  match input with
  | [] => (fs, log, None)
  | filename :: rest =>
      match fs !! filename with
      | None => (fs, log, Some IOError)
      | Some line_data =>
          let '(s, e) := convert filename line_data in
          let fs := <[mot_name filename := out s]> fs in
          let log := log ++ console s in
          match e with
          | None => main fs log rest
          | Some _ => (fs, log, e)
          end
      end
  end.

(** ** Specification-side definitions *)

(** The text of a fixed-point value: sign, integer digits, point, fraction. *)
Definition value_text (neg : bool) (ip fp : string) : string :=
  Py.sign_str neg +:+ ip +:+ "." +:+ fp.

(** The standard fixed-point field the padding loop is meant to agree with:
    the integer part with its sign right-justified to width 11, the point,
    the fraction. *)
Definition std_field (neg : bool) (ip fp : string) : string :=
  Py.rjust (Py.sign_str neg +:+ ip) 11 +:+ "." +:+ fp.

(** [occurs c s]: the character [c] occurs in [s]. *)
Fixpoint occurs (c : ascii) (s : string) : bool :=
  match s with
  | EmptyString => false
  | String a s' => Ascii.eqb a c || occurs c s'
  end.

(** The remap of the force triple: swap of y and z, sign reversal of the new
    z, shift of x by -0.5 and of z by +0.25; each value goes through [pad]. *)
Definition force_remap (x y z : string) : result (list string) :=
  let* px := pad x in
  let* pz := pad z in
  let* py := pad y in
  let* ox := shift_axis px c_neg_0_5 in
  let* oz := shift_axis (reverse_axis py) c_0_25 in
  Ok [ox; pz; oz].

(** The remap of the COP triple as [remap] computes it: the x output comes
    from the input y (scaled by 0.001 and sign-flipped, then sign-reversed
    again and shifted by -0.5), the y output is the zero text, the z output
    comes from the input x (scaled by 0.001, sign-reversed and shifted by
    +0.25). *)
Definition cop_remap (x y z : string) : result (list string) :=
  let* sx := scale_axis x c_0_001 in
  let* px := pad sx in
  let* sy := scale_axis (reverse_axis y) c_0_001 in
  let* py := pad sy in
  let* ox := shift_axis (reverse_axis py) c_neg_0_5 in
  let* oz := shift_axis (reverse_axis px) c_0_25 in
  Ok [ox; "0.00000000"; oz].

(** The z output of the COP as the specification words it: the input y
    scaled by 0.001 and sign-flipped, then sign-reversed and shifted by
    +0.25. *)
Definition cop_z_as_stated (y : string) : result string :=
  let* sy := scale_axis y c_0_001 in
  let* py := pad (reverse_axis sy) in
  shift_axis (reverse_axis py) c_0_25.

(** The remap as the specification states it, for rows of nine or more
    tokens. *)
Definition remap_as_stated : Prop :=
  forall fx fy fz mx my mz cx cy cz rest d',
    remap (fx :: fy :: fz :: mx :: my :: mz :: cx :: cy :: cz :: rest) = Ok d' ->
    force_remap fx fy fz = Ok (take 3 d')
    /\ d' !! 7%nat = Some "0.00000000"
    /\ exists oz, cop_z_as_stated cy = Ok oz /\ d' !! 8%nat = Some oz.

(** Peel the leading binds of a successful computation. *)
Ltac peel H :=
  repeat
    (cbn [getitem setitem lookup list_lookup insert list_insert length
          Nat.ltb Nat.leb bind] in H;
     match type of H with
     | bind ?m _ = Ok _ =>
         let a := fresh "v" in
         let E := fresh "E" in
         destruct m as [a|] eqn:E; [|discriminate H]
     end).

(** The blocks of an output row, by their place under the column header:
    right force, right COP, left force, left COP, right moment, left
    moment. *)
Definition R_force (o : list string) : list string := take 3 o.
Definition R_cop (o : list string) : list string := take 3 (drop 3 o).
Definition L_force (o : list string) : list string := take 3 (drop 6 o).
Definition L_cop (o : list string) : list string := take 3 (drop 9 o).
Definition R_moment (o : list string) : list string := take 3 (drop 12 o).
Definition L_moment (o : list string) : list string := take 3 (drop 15 o).

Definition zero6 : list string := zero_tuple ++ zero_tuple.



(** The frame invariant as the specification states it: exactly one of the
    two force+COP blocks is not all zero, and the six moment fields are
    zero. *)
Definition frame_invariant (o : list string) : Prop :=
  ((R_force o ++ R_cop o <> zero6 /\ L_force o ++ L_cop o = zero6)
   \/ (R_force o ++ R_cop o = zero6 /\ L_force o ++ L_cop o <> zero6))
  /\ R_moment o ++ L_moment o = zero6.

Definition frame_invariant_as_stated : Prop :=
  forall (row d o : list string) (i half : Z),
    remap row = Ok d -> segment i half d = Ok o -> frame_invariant o.

(** A sample row and its remap, used to exercise the theorems. *)
Definition sample_row : list string :=
  ["1.0"; "2.0"; "3.0"; "0"; "0"; "0"; "1000"; "2000"; "0"].

Definition sample_remapped : list string :=
  ["0.50000000"; "3.00000000"; "-1.75000000"; "-0.50000000"; "0.00000000";
   "0.25000000"; "1.50000000"; "0.00000000"; "-0.75000000"].

Definition sample_left_frame : list string :=
  ["0.00000000"; "0.00000000"; "0.00000000"; "0.00000000"; "0.00000000";
   "0.00000000"; "0.50000000"; "3.00000000"; "-1.75000000"; "1.50000000";
   "0.00000000"; "-0.75000000"; "0.00000000"; "0.00000000"; "0.00000000";
   "0.00000000"; "0.00000000"; "0.00000000"].

(** *** The header and the clock *)

Definition column_header_line : string :=
  Py.rjust ("time" +:+ tab) 21 +:+ mot_column_header +:+ nl.

(** The seven lines of the preamble, in the order they are written. *)
Definition preamble (filename : string) (n_rows n_columns : Z) : list string :=
  [ mot_name filename +:+ nl;
    "version=1" +:+ nl;
    "nRows=" +:+ Py.str_int n_rows +:+ nl;
    "nColumns=" +:+ Py.str_int n_columns +:+ nl;
    "inDegrees=yes" +:+ nl;
    "endheader" +:+ nl;
    column_header_line ].

Definition extra_field (i : string) : string :=
  "EXTRA FIELD - NOT WRITTEN TO .mot FILE: " +:+ i.

(** The frequency a line announces, if it is a [FREQUENCY] line. *)
Definition line_frequency (i : string) : result (option Z) :=
  if String.eqb (Py.slice_to 9 i) "FREQUENCY" then
    let* tok := getitem (Py.split i) 1 in
    let* frequency := Py.int tok in
    Ok (Some frequency)
  else Ok None.

(** The frequency in force after the lines [pre]: that of the last
    [FREQUENCY] line. *)
Definition last_frequency (acc : option Z) (pre : list string) : option Z :=
  fold_left
    (fun acc i => match line_frequency i with Ok (Some f) => Some f | _ => acc end)
    pre acc.

(** [1.0 / frequency] *)
Definition quant_of (frequency : Z) : Py.float :=
  Py.fdiv c_1_0 (binary_normalize Py.prec Py.emax frequency 0 false).

(** The value of [time] at the [k]-th data row: [k] float additions of
    [quant] to [0.0]. *)
Definition clock_from (t : Py.float) (q : Py.float) (k : nat) : Py.float :=
  Nat.iter k (fun t => Py.fadd t q) t.

Definition clock (q : Py.float) (k : nat) : Py.float := clock_from c_0_0 q k.

(** The time field of the [k]-th data row: [pad(str(time)).rjust(20)]. *)
Definition time_field (q : Py.float) (k : nat) : result string :=
  let* t := pad (Py.str (clock q k)) in
  Ok (Py.rjust t 20).

(** The float nearest to the integer [k]. *)
Definition float_of_Z (k : Z) : Py.float := binary_normalize Py.prec Py.emax k 0 false.

(** The time column as the specification states it: the field of row [k] is
    [k * (1/f)], and the column increases strictly from row to row. *)
Definition time_column_as_stated : Prop :=
  forall (f : Z) (k : nat),
    0 < f ->
    time_field (quant_of f) k
      = Ok (Py.rjust (Py.format_f8 (Py.fmul (float_of_Z (Z.of_nat k)) (quant_of f))) 20)
    /\ time_field (quant_of f) k <> time_field (quant_of f) (S k).

(** The missing marker as the specification states it: the conversion of a
    file without marker line fails. *)
Definition missing_marker_as_stated : Prop :=
  forall (filename : string) (line_data : list string),
    Forall (fun i => is_marker i = false) line_data ->
    snd (convert filename line_data) <> None.

(** A line that the frequency scan of lines 246 to 249 passes without
    raising. *)
Definition frequency_line_ok (i : string) : bool :=
  is_ok (scan_frequency (init "") i).

(** A synthetic recording of four rows at 100 Hz with nine columns. *)
Definition four_rows : list string :=
  [ "NO_OF_FRAMES	4" +:+ nl;
    "FREQUENCY	100" +:+ nl;
    "Force_X	Force_Y	Force_Z	Moment_X	Moment_Y	Moment_Z	COP_X	COP_Y	COP_Z" +:+ nl;
    "1.0	2.0	3.0	4.0	5.0	6.0	1000.0	2000.0	7.0" +:+ nl;
    "1.5	2.5	3.5	4.0	5.0	6.0	1000.0	2000.0	7.0" +:+ nl;
    "-1.0	-2.0	-3.0	4.0	5.0	6.0	-100.0	-200.0	7.0" +:+ nl;
    "10	20	30	4	5	6	0	0	7" +:+ nl ].
(** ** Facts about strings *)

Section StringFacts.

Implicit Types (s t u : string) (c : ascii).

Lemma app_nil_l_s s : "" +:+ s = s.
Proof. reflexivity. Qed.

Lemma app_cons_s c s t : String c s +:+ t = String c (s +:+ t).
Proof. reflexivity. Qed.

Lemma app_nil_r_s s : s +:+ "" = s.
Proof.
  induction s as [|a s IH]; [reflexivity|].
  now rewrite app_cons_s, IH.
Qed.

Lemma app_assoc_s s t u : (s +:+ t) +:+ u = s +:+ (t +:+ u).
Proof.
  induction s as [|a s IH]; [reflexivity|].
  now rewrite !app_cons_s, IH.
Qed.

Lemma length_app_s s t :
  String.length (s +:+ t) = (String.length s + String.length t)%nat.
Proof.
  induction s as [|a s IH]; [reflexivity|].
  rewrite app_cons_s. simpl. now rewrite IH.
Qed.

Lemma length_spaces n : String.length (Py.spaces n) = n.
Proof. induction n as [|n IH]; simpl; [reflexivity | now rewrite IH]. Qed.

Lemma spaces_add n m : Py.spaces (n + m) = Py.spaces n +:+ Py.spaces m.
Proof.
  induction n as [|n IH]; [reflexivity|].
  simpl. now rewrite app_cons_s, IH.
Qed.

Lemma length_rjust s n :
  String.length (Py.rjust s n) = Nat.max n (String.length s).
Proof. unfold Py.rjust. rewrite length_app_s, length_spaces. lia. Qed.

Lemma rjust_long s n : (n <= String.length s)%nat -> Py.rjust s n = s.
Proof.
  intros H. unfold Py.rjust.
  replace (n - String.length s)%nat with 0%nat by lia. reflexivity.
Qed.

(** Right-justifying a text [s +:+ t] is right-justifying [s] in what is
    left of the width. *)
Lemma rjust_app s t n :
  Py.rjust (s +:+ t) (n + String.length t) = Py.rjust s n +:+ t.
Proof.
  unfold Py.rjust. rewrite length_app_s, app_assoc_s.
  f_equal. f_equal. lia.
Qed.

Lemma occurs_app c s t : occurs c (s +:+ t) = occurs c s || occurs c t.
Proof.
  induction s as [|a s IH]; [reflexivity|].
  rewrite app_cons_s. simpl. rewrite IH. now rewrite orb_assoc.
Qed.

Lemma split_on_nonempty c s : Py.split_on c s <> [].
Proof.
  destruct s as [|a s]; simpl; [discriminate|].
  destruct (Ascii.eqb a c); [discriminate|].
  destruct (Py.split_on c s); discriminate.
Qed.

Lemma split_on_absent c s : occurs c s = false -> Py.split_on c s = [s].
Proof.
  induction s as [|a s IH]; simpl; [reflexivity|].
  intros [Ha Hs]%orb_false_elim. rewrite Ha, (IH Hs). reflexivity.
Qed.

Lemma split_on_app c s t :
  occurs c s = false ->
  Py.split_on c (s +:+ String c t) = s :: Py.split_on c t.
Proof.
  induction s as [|a s IH].
  - intros _. rewrite app_nil_l_s. simpl. now rewrite Ascii.eqb_refl.
  - rewrite app_cons_s. simpl.
    intros [Ha Hs]%orb_false_elim. rewrite Ha, (IH Hs). reflexivity.
Qed.

Lemma all_digits_occurs c s :
  Py.isdigit c = false -> Py.all_digits s = true -> occurs c s = false.
Proof.
  intros Hc. induction s as [|a s IH]; simpl; [reflexivity|].
  intros [Ha Hs]%andb_prop. rewrite (IH Hs), orb_false_r.
  destruct (Ascii.eqb_spec a c) as [->|]; [congruence | reflexivity].
Qed.

Lemma all_digits_app s t :
  Py.all_digits (s +:+ t) = Py.all_digits s && Py.all_digits t.
Proof.
  induction s as [|a s IH]; [reflexivity|].
  rewrite app_cons_s. simpl. rewrite IH. now rewrite andb_assoc.
Qed.

Lemma all_digits_not_minus s :
  Py.all_digits s = true -> String.eqb (Py.slice_to 1 s) "-" = false.
Proof.
  destruct s as [|a s]; simpl; [reflexivity|].
  intros [Ha _]%andb_prop.
  destruct (Ascii.eqb_spec a "-") as [->|]; [discriminate|].
  destruct s; reflexivity.
Qed.

End StringFacts.

(** ** The padding loop *)

(** The first piece of a value lands right-justified to width 11, with or
    without a sign. *)
Lemma pad_piece_first x : pad_piece "" x = Py.rjust x 11.
Proof. unfold pad_piece. simpl. now destruct (String.eqb _ _). Qed.

(** A later piece without a sign is appended after a point. *)
Lemma pad_piece_next r x :
  (1 <= String.length r)%nat ->
  String.eqb (Py.slice_to 1 x) "-" = false ->
  pad_piece r x = r +:+ "." +:+ x.
Proof.
  intros Hr Hx. unfold pad_piece. rewrite Hx.
  destruct (Nat.ltb_spec (String.length r) 1); [lia | reflexivity].
Qed.

Lemma pad_field_two s fp :
  occurs "." s = false -> Py.all_digits fp = true ->
  pad_field (s +:+ "." +:+ fp) = Py.rjust s 11 +:+ "." +:+ fp.
Proof.
  intros Hs Hfp. unfold pad_field.
  change ("." +:+ fp) with (String "." fp).
  rewrite (split_on_app _ _ _ Hs).
  rewrite (split_on_absent "." fp) by (now apply all_digits_occurs).
  simpl. rewrite pad_piece_first.
  apply pad_piece_next.
  - rewrite length_rjust. lia.
  - now apply all_digits_not_minus.
Qed.

Lemma sign_digits_no_point neg ip :
  Py.all_digits ip = true -> occurs "." (Py.sign_str neg +:+ ip) = false.
Proof.
  intros H. rewrite occurs_app, (all_digits_occurs "." ip) by (reflexivity || assumption).
  now destruct neg.
Qed.

(** C9. For a value text made of an optional [-], integer digits, a point
    and exactly eight fraction digits, the padding loop of lines 405 to 426
    yields the standard fixed-point field (the signed integer part
    right-justified to width 11, the point, the eight digits), which is the
    whole text right-justified to width 20: the text is kept in full, sign
    included. *)
Theorem pad_field_is_fixed_point (neg : bool) (ip fp : string) :
  Py.all_digits ip = true ->
  Py.all_digits fp = true ->
  String.length fp = 8%nat ->
  pad_field (value_text neg ip fp) = std_field neg ip fp
  /\ pad_field (value_text neg ip fp) = Py.rjust (value_text neg ip fp) 20
  /\ exists n, pad_field (value_text neg ip fp) = Py.spaces n +:+ value_text neg ip fp.
Proof.
  intros Hip Hfp Hlen.
  assert (E : pad_field (value_text neg ip fp) = std_field neg ip fp).
  { unfold value_text, std_field. rewrite <- app_assoc_s.
    apply pad_field_two; [now apply sign_digits_no_point | assumption]. }
  assert (R : std_field neg ip fp = Py.rjust (value_text neg ip fp) 20).
  { unfold value_text, std_field. rewrite <- (app_assoc_s (Py.sign_str neg)).
    replace 20%nat with (11 + String.length ("." +:+ fp))%nat
      by (rewrite length_app_s, Hlen; reflexivity).
    now rewrite rjust_app. }
  split; [exact E|]. split; [now rewrite E|].
  rewrite E, R. unfold Py.rjust. eauto.
Qed.

Lemma pad_field_is_fixed_point_witness :
  pad_field (value_text true "1" "75000000") = std_field true "1" "75000000"
  /\ pad_field (value_text true "1" "75000000")
     = Py.rjust (value_text true "1" "75000000") 20
  /\ exists n, pad_field (value_text true "1" "75000000")
               = Py.spaces n +:+ value_text true "1" "75000000".
Proof. apply (pad_field_is_fixed_point true "1" "75000000"); reflexivity. Defined.

(** ** The axis remap *)

Lemma bind_ok {A B : Type} (m : result A) (k : A -> result B) (b : B) :
  bind m k = Ok b -> exists a, m = Ok a /\ k a = Ok b.
Proof. destruct m as [a|e]; simpl; [eauto | discriminate]. Qed.

Lemma bind_ok_eq {A B : Type} (m : result A) (k : A -> result B) (a : A) :
  m = Ok a -> bind m k = k a.
Proof. now intros ->. Qed.

(** C1 (amended). On a row of nine or more tokens that [remap] accepts, the
    force triple (x, y, z) comes out as (x - 0.5, z, -y + 0.25); the COP
    comes out with x taken from the input COP y scaled by 0.001 (its sign
    flipped twice) and shifted by -0.5, y fixed to the zero text, and z
    taken from the input COP x scaled by 0.001, sign-reversed and shifted
    by +0.25; the moment slots keep their place and surplus tokens stay
    behind the nine. *)
Theorem remap_axes fx fy fz mx my mz cx cy cz rest d' :
  remap (fx :: fy :: fz :: mx :: my :: mz :: cx :: cy :: cz :: rest) = Ok d' ->
  exists F M C,
    force_remap fx fy fz = Ok F /\ cop_remap cx cy cz = Ok C /\
    length M = 3%nat /\ d' = F ++ M ++ C ++ rest.
Proof.
  intros H. unfold remap in H. peel H.
  cbn [getitem setitem lookup list_lookup insert list_insert length
       Nat.ltb Nat.leb bind] in H.
  injection H as <-.
  unfold force_remap, cop_remap.
  repeat match goal with
         | E : ?m = Ok _ |- context [bind ?m _] => rewrite (bind_ok_eq _ _ _ E)
         end.
  eexists _, [_; _; _], _. repeat split.
Qed.

Lemma remap_axes_witness :
  exists F M C,
    force_remap "1.0" "2.0" "3.0" = Ok F /\ cop_remap "1000" "2000" "0" = Ok C /\
    length M = 3%nat /\
    ["0.50000000"; "3.00000000"; "-1.75000000"; "-0.50000000"; "0.00000000";
     "0.25000000"; "1.50000000"; "0.00000000"; "-0.75000000"] = F ++ M ++ C ++ [].
Proof.
  apply (remap_axes "1.0" "2.0" "3.0" "0" "0" "0" "1000" "2000" "0" []).
  vm_compute. reflexivity.
Defined.

(** The raw force (1.0, 2.0, 3.0) yields (0.5, 3.0, -1.75). *)
Example force_remap_1_2_3 :
  force_remap "1.0" "2.0" "3.0" = Ok ["0.50000000"; "3.00000000"; "-1.75000000"].
Proof. vm_compute. reflexivity. Qed.

(** The COP (1000, 2000, 0), in millimetres, yields (1.5, 0, -0.75): the z
    output follows the input x, where the stated remap would give +2.25
    from the input y. *)
Example cop_remap_1000_2000 :
  cop_remap "1000" "2000" "0" = Ok ["1.50000000"; "0.00000000"; "-0.75000000"]
  /\ cop_z_as_stated "2000" = Ok "2.25000000".
Proof. vm_compute. split; reflexivity. Qed.

(** C1 as stated fails: on the row [1.0 2.0 3.0 0 0 0 1000 2000 0] the z
    output of the COP is -0.75 (from the input x), not the +2.25 that the
    input y scaled, sign-flipped, sign-reversed and shifted would give. *)
Lemma remap_as_stated_fails : ~ remap_as_stated.
Proof.
  intros H.
  destruct (H "1.0" "2.0" "3.0" "0" "0" "0" "1000" "2000" "0" []
              ["0.50000000"; "3.00000000"; "-1.75000000"; "-0.50000000";
               "0.00000000"; "0.25000000"; "1.50000000"; "0.00000000";
               "-0.75000000"])
    as (_ & _ & oz & Hz & Hoz).
  - vm_compute. reflexivity.
  - vm_compute in Hz. vm_compute in Hoz. congruence.
Qed.

(** ** Leg segmentation *)

Lemma remap_length row d : remap row = Ok d -> length d = length row.
Proof.
  intros H. unfold remap in H.
  repeat
    (apply bind_ok in H as (? & ? & H);
     try match goal with
         | E : setitem _ _ _ = Ok _ |- _ =>
             unfold setitem in E;
             destruct (_ <? _)%nat in E; [|discriminate E];
             injection E as <-
         end).
  now rewrite !length_insert.
Qed.

(** The shape of the segmented row, whatever the number of surplus tokens:
    [rest] is what follows the ninth slot. *)
Lemma segment_shape (i half : Z) (f0 f1 f2 m0 m1 m2 c0 c1 c2 : string) (rest : list string) :
  segment i half (f0 :: f1 :: f2 :: m0 :: m1 :: m2 :: c0 :: c1 :: c2 :: rest)
  = Ok (if i <? half
        then [f0; f1; f2] ++ [c0; c1; c2] ++ zero_tuple ++ rest
               ++ zero_tuple ++ zero_tuple ++ zero_tuple
        else zero_tuple ++ zero_tuple ++ [f0; f1; f2] ++ rest
               ++ [c0; c1; c2] ++ zero_tuple ++ zero_tuple).
Proof.
  unfold segment. destruct (i <? half); cbn.
  - now rewrite <- !app_assoc.
  - now rewrite <- !app_assoc.
Qed.

Lemma nine_slots (d : list string) :
  (9 <= length d)%nat ->
  exists f0 f1 f2 m0 m1 m2 c0 c1 c2 rest,
    d = f0 :: f1 :: f2 :: m0 :: m1 :: m2 :: c0 :: c1 :: c2 :: rest
    /\ length d = (9 + length rest)%nat.
Proof.
  intros H.
  do 9 (destruct d as [|? d]; [simpl in H; lia|]).
  repeat eexists.
Qed.




(** C3 (amended). In the output frame of every nine-token row there are
    eighteen fields, the six fields of the inactive leg are exactly the
    8-decimal zero text, and the six moment fields are exactly zero,
    whichever leg is active; so at most one leg's force+COP block is
    non-zero. *)
Theorem frame_zero_blocks (row d o : list string) (i half : Z) :
  length row = 9%nat ->
  remap row = Ok d ->
  segment i half d = Ok o ->
  length o = 18%nat
  /\ R_moment o ++ L_moment o = zero6
  /\ (i < half -> L_force o ++ L_cop o = zero6)
  /\ (half <= i -> R_force o ++ R_cop o = zero6).
Proof.
  intros Hlen Hd Ho. apply remap_length in Hd. rewrite Hlen in Hd.
  destruct (nine_slots d) as (f0 & f1 & f2 & m0 & m1 & m2 & c0 & c1 & c2 & rest & -> & Hr);
    [lia|].
  assert (rest = []) as -> by (destruct rest; [reflexivity | simpl in Hd; lia]).
  rewrite segment_shape in Ho. injection Ho as <-.
  destruct (Z.ltb_spec i half); repeat split; intros; try lia; reflexivity.
Qed.

Lemma frame_zero_blocks_witness :
  length sample_left_frame = 18%nat
  /\ R_moment sample_left_frame ++ L_moment sample_left_frame = zero6
  /\ (3 < 2 -> L_force sample_left_frame ++ L_cop sample_left_frame = zero6)
  /\ (2 <= 3 -> R_force sample_left_frame ++ R_cop sample_left_frame = zero6).
Proof.
  apply (frame_zero_blocks sample_row sample_remapped sample_left_frame 3 2).
  - reflexivity.
  - vm_compute. reflexivity.
  - vm_compute. reflexivity.
Defined.

(** The row [0.5 0.25 0 0 0 0 250 500 0] remaps to zeros throughout its
    force and COP: its frame has no non-zero block at all. *)
Example all_zero_frame :
  remap ["0.5"; "0.25"; "0"; "0"; "0"; "0"; "250"; "500"; "0"]
  = Ok ["0.00000000"; "0.00000000"; "0.00000000"; "-0.50000000"; "0.00000000";
        "0.25000000"; "0.00000000"; "0.00000000"; "0.00000000"].
Proof. vm_compute. reflexivity. Qed.

(** C3 as stated fails: the active block of a frame can be all zero (the
    row [0.5 0.25 0 0 0 0 250 500 0] as first frame), so that no block is
    non-zero. *)
Lemma frame_invariant_as_stated_fails : ~ frame_invariant_as_stated.
Proof.
  intros H.
  destruct (H ["0.5"; "0.25"; "0"; "0"; "0"; "0"; "250"; "500"; "0"]
              ["0.00000000"; "0.00000000"; "0.00000000"; "-0.50000000";
               "0.00000000"; "0.25000000"; "0.00000000"; "0.00000000";
               "0.00000000"]
              (zero6 ++ zero6 ++ zero6) 0 1) as [[[Hr _]|[_ Hl]] _].
  - vm_compute. reflexivity.
  - vm_compute. reflexivity.
  - apply Hr. reflexivity.
  - apply Hl. reflexivity.
Qed.

(** With surplus tokens the invariant fails in its other half too: the
    fields under the inactive leg's COP columns and under the moment
    columns are surplus tokens. *)
Example surplus_breaks_zero_blocks :
  exists d o,
    remap ["1"; "2"; "3"; "4"; "5"; "6"; "7"; "8"; "9"; "10"; "11"; "12";
           "13"; "14"; "15"] = Ok d
    /\ segment 0 1 d = Ok o
    /\ L_cop o = ["10"; "11"; "12"] /\ R_moment o = ["13"; "14"; "15"].
Proof. eexists _, _. vm_compute. repeat split. Qed.


(** ** The loop of [convert] *)

Section Loop.

Variable total_rows : Z.

Lemma marker_not_frequency i :
  is_marker i = true -> String.eqb (Py.slice_to 9 i) "FREQUENCY" = false.
Proof.
  unfold is_marker. destruct i as [|a [|b i]]; simpl.
  - discriminate.
  - destruct (Ascii.eqb a "F"); discriminate.
  - destruct (Ascii.eqb_spec a "F") as [->|]; [|discriminate].
    destruct (Ascii.eqb_spec b "o") as [->|]; [|discriminate].
    reflexivity.
Qed.

Lemma float_of_int_ok n x :
  Py.float_of_int n = Ok x -> x = binary_normalize Py.prec Py.emax n 0 false.
Proof.
  unfold Py.float_of_int.
  destruct (binary_normalize Py.prec Py.emax n 0 false); congruence.
Qed.

(** The frequency scan touches [quant] only, and sets it from the line's
    frequency. *)
Lemma scan_frequency_ok s i s' :
  scan_frequency s i = Ok s' ->
  out s' = out s /\ console s' = console s /\ header_rows s' = header_rows s /\
  time s' = time s /\ data_flag s' = data_flag s /\
  frame_number s' = frame_number s /\ dataset_half s' = dataset_half s /\
  quant s' = match line_frequency i with
             | Ok (Some f) => quant_of f
             | _ => quant s
             end.
Proof.
  unfold scan_frequency, line_frequency.
  destruct (String.eqb _ _).
  - destruct (getitem (Py.split i) 1) as [tok|]; [|discriminate]. simpl.
    destruct (Py.int tok) as [f|]; [|discriminate]. simpl.
    destruct (Py.float_of_int f) as [fr|] eqn:Efr; [|discriminate]. simpl.
    destruct (f =? 0); [discriminate|].
    intros [= <-]. simpl. apply float_of_int_ok in Efr as ->.
    repeat split.
  - intros [= <-]. repeat split.
Qed.

Lemma scan_frequency_none s i :
  String.eqb (Py.slice_to 9 i) "FREQUENCY" = false -> scan_frequency s i = Ok s.
Proof. unfold scan_frequency. now intros ->. Qed.

Lemma scan_frequency_any s1 s2 i :
  is_ok (scan_frequency s1 i) = is_ok (scan_frequency s2 i).
Proof.
  unfold scan_frequency. destruct (String.eqb _ _); [|reflexivity].
  destruct (getitem _ _); [|reflexivity]. simpl.
  destruct (Py.int _) as [f|]; [|reflexivity]. simpl.
  destruct (Py.float_of_int f); [|reflexivity]. simpl.
  now destruct (f =? 0).
Qed.

(** A header line (before the marker) is echoed on the console and leaves
    the file alone. *)
Lemma step_header s i s' :
  is_marker i = false -> data_flag s = false ->
  step total_rows s i = Ok s' ->
  out s' = out s /\ console s' = console s ++ [extra_field i] /\
  header_rows s' = header_rows s + 1 /\ time s' = time s /\
  data_flag s' = false /\ frame_number s' = frame_number s /\
  dataset_half s' = dataset_half s /\
  quant s' = match line_frequency i with
             | Ok (Some f) => quant_of f
             | _ => quant s
             end.
Proof.
  intros Hm Hf. unfold step. rewrite Hm.
  destruct (scan_frequency _ i) as [s1|] eqn:E; [|discriminate]. simpl.
  apply scan_frequency_ok in E as (Ho & Hc & Hh & Ht & Hd & Hn & Hdh & Hq).
  simpl in *. rewrite Hd, Hf. simpl. intros [= <-]. simpl.
  rewrite Ho, Hc, Hh, Ht, Hd, Hn, Hdh, Hq. repeat split. assumption.
Qed.

Lemma step_header_ok s i :
  is_marker i = false -> data_flag s = false ->
  frequency_line_ok i = true -> is_ok (step total_rows s i) = true.
Proof.
  intros Hm Hf Hi. unfold step. rewrite Hm.
  unfold frequency_line_ok in Hi.
  match goal with
  | |- context [scan_frequency ?b i] =>
      rewrite <- (scan_frequency_any b (init "") i) in Hi;
      destruct (scan_frequency b i) as [s1|] eqn:E
  end.
  - simpl. apply scan_frequency_ok in E as (_ & _ & _ & _ & Hd & _).
    simpl in Hd. now rewrite Hd, Hf.
  - discriminate Hi.
Qed.

(** The header scan: the file is left alone, the lines are counted and
    echoed, and [quant] follows the last frequency line. *)
Lemma run_header pre : forall s s' acc,
  Forall (fun i => is_marker i = false) pre ->
  data_flag s = false ->
  run total_rows s pre = (s', None) ->
  out s' = out s /\ console s' = console s ++ map extra_field pre /\
  header_rows s' = header_rows s + Z.of_nat (length pre) /\
  time s' = time s /\ data_flag s' = false /\
  frame_number s' = frame_number s /\ dataset_half s' = dataset_half s /\
  (quant s = from_option quant_of c_0_0 acc ->
   quant s' = from_option quant_of c_0_0 (last_frequency acc pre)).
Proof.
  induction pre as [|i pre IH]; intros s s' acc Hpre Hf Hrun.
  - injection Hrun as <-. simpl. rewrite app_nil_r, Z.add_0_r.
    repeat split; auto.
  - apply Forall_cons in Hpre as [Hi Hpre]. simpl in Hrun.
    destruct (step total_rows s i) as [s1|] eqn:E; [|discriminate].
    apply (step_header _ _ _ Hi Hf) in E
      as (Ho & Hc & Hh & Ht & Hd & Hn & Hdh & Hq).
    apply (IH s1 s'
             (match line_frequency i with Ok (Some f) => Some f | _ => acc end)
             Hpre Hd) in Hrun
      as (Ho' & Hc' & Hh' & Ht' & Hd' & Hn' & Hdh' & Hq').
    rewrite Ho', Hc', Hh', Ht', Hn', Hdh', Ho, Hc, Hh, Ht, Hn, Hdh.
    repeat split; try assumption.
    + simpl. now rewrite <- app_assoc.
    + rewrite length_cons. lia.
    + intros Hacc. apply Hq'. rewrite Hq.
      destruct (line_frequency i) as [[f|]|]; simpl; auto.
Qed.

(** A header scan over well-formed frequency lines raises nothing. *)
Lemma run_header_ok pre : forall s,
  Forall (fun i => is_marker i = false) pre ->
  Forall (fun i => frequency_line_ok i = true) pre ->
  data_flag s = false ->
  exists s', run total_rows s pre = (s', None).
Proof.
  induction pre as [|i pre IH]; intros s Hm Hfr Hf; [now eexists|].
  apply Forall_cons in Hm as [Hi Hm]. apply Forall_cons in Hfr as [Hfi Hfr].
  simpl. pose proof (step_header_ok s i Hi Hf Hfi) as Hok.
  destruct (step total_rows s i) as [s1|] eqn:E; [|discriminate].
  apply (step_header _ _ _ Hi Hf) in E as (_ & _ & _ & _ & Hd & _).
  now apply IH.
Qed.

(** The marker line writes the five remaining header lines and fixes
    [dataset_half]. *)
Lemma step_marker s i :
  is_marker i = true ->
  exists s',
    step total_rows s i = Ok s' /\
    out s' = out s ++
      [ "nRows=" +:+ Py.str_int (total_rows - (header_rows s + 1)) +:+ nl;
        "nColumns=" +:+ Py.str_int (Z.of_nat (length (Py.split i)) + 1 + 9) +:+ nl;
        "inDegrees=yes" +:+ nl; "endheader" +:+ nl; column_header_line ] /\
    header_rows s' = header_rows s + 1 /\ time s' = time s /\
    quant s' = quant s /\ data_flag s' = true /\
    frame_number s' = frame_number s /\
    dataset_half s' = Some ((total_rows - (header_rows s + 1)) `div` 2).
Proof.
  intros Hm. unfold step. rewrite Hm.
  rewrite scan_frequency_none by (now apply marker_not_frequency).
  simpl. eexists. split; [reflexivity|]. simpl.
  rewrite <- !app_assoc. repeat split.
Qed.

(** Whatever a turn of the loop does, what was written stays. *)
Lemma step_out_grows s i s' :
  step total_rows s i = Ok s' -> exists more, out s' = out s ++ more.
Proof.
  unfold step.
  destruct (scan_frequency _ i) as [s1|] eqn:E; [|discriminate]. simpl.
  apply scan_frequency_ok in E as (Ho & _). simpl in Ho.
  destruct (is_marker i).
  - intros [= <-]. simpl. rewrite Ho, <- !app_assoc. eauto.
  - destruct (negb (data_flag s1)).
    + intros [= <-]. simpl. rewrite Ho. exists []. now rewrite app_nil_r.
    + unfold write_data. destruct (dataset_half s1); [|discriminate].
      destruct (data_row _ _ _ _); [|discriminate]. simpl.
      intros [= <-]. simpl. rewrite Ho. eauto.
Qed.

Lemma run_out_grows lines : forall s s' e,
  run total_rows s lines = (s', e) -> exists more, out s' = out s ++ more.
Proof.
  induction lines as [|i lines IH]; intros s s' e Hrun; simpl in Hrun.
  - injection Hrun as <- <-. exists []. now rewrite app_nil_r.
  - destruct (step total_rows s i) as [s1|] eqn:E.
    + apply step_out_grows in E as [m1 E1]. apply IH in Hrun as [m2 E2].
      exists (m1 ++ m2). now rewrite E2, E1, app_assoc.
    + injection Hrun as <- <-. exists []. now rewrite app_nil_r.
Qed.

Lemma run_app l1 : forall s l2,
  run total_rows s (l1 ++ l2)
  = match run total_rows s l1 with
    | (s1, None) => run total_rows s1 l2
    | r => r
    end.
Proof.
  induction l1 as [|i l1 IH]; intros s l2; [reflexivity|]. simpl.
  destruct (step total_rows s i); [apply IH | reflexivity].
Qed.

(** A line that starts with [FREQUENCY] is no data row: its first token is
    no number. *)
Lemma data_row_not_frequency fn half t i text :
  data_row fn half t i = Ok text ->
  String.eqb (Py.slice_to 9 i) "FREQUENCY" = false.
Proof.
  intros H. destruct (String.eqb _ _) eqn:E; [exfalso | reflexivity].
  destruct i as [|a i]; [discriminate|]. simpl in E.
  destruct (Ascii.eqb_spec a "F") as [->|]; [clear E | discriminate].
  assert (Hs : exists w ws, Py.split (String "F" i) = String "F" w :: ws).
  { simpl. destruct (Py.starts_word i); [destruct (Py.split i)|]; eauto. }
  destruct Hs as (w & ws & Hs).
  unfold data_row in H. rewrite Hs in H.
  apply bind_ok in H as (d & Hd & _).
  unfold remap in Hd. apply bind_ok in Hd as (x & Hx & Hd).
  injection Hx as <-. apply bind_ok in Hd as (v & Hv & _).
  unfold pad in Hv. apply bind_ok in Hv as (y & Hy & _).
  unfold Py.float_of_str, Py.parse_float, Py.strip in Hy. simpl in Hy.
  destruct (Py.rstrip_ws w); discriminate Hy.
Qed.

(** A data line (after the marker) is converted with the current frame
    number and time, written, and the counters advance. *)
Lemma step_data s i s' half :
  is_marker i = false -> data_flag s = true -> dataset_half s = Some half ->
  step total_rows s i = Ok s' ->
  exists text,
    data_row (frame_number s) half (time s) i = Ok text /\
    out s' = out s ++ [text] /\ console s' = console s /\
    header_rows s' = header_rows s + 1 /\
    time s' = Py.fadd (time s) (quant s) /\ quant s' = quant s /\
    data_flag s' = true /\ frame_number s' = frame_number s + 1 /\
    dataset_half s' = Some half.
Proof.
  intros Hm Hf Hh. unfold step. rewrite Hm.
  destruct (scan_frequency _ i) as [s1|] eqn:E; [|discriminate]. simpl.
  pose proof E as E'.
  apply scan_frequency_ok in E as (Ho & Hc & Hr & Ht & Hd & Hn & Hdh & _).
  simpl in *. rewrite Hd, Hf. simpl.
  unfold write_data. rewrite Hdh, Hh, Hn, Ht.
  destruct (data_row _ _ _ i) as [text|] eqn:Er; [|discriminate]. simpl.
  intros [= <-]. simpl.
  rewrite (scan_frequency_none _ _ (data_row_not_frequency _ _ _ _ _ Er)) in E'.
  injection E' as <-. simpl. exists text. rewrite Hf. repeat split.
  exact Hh.
Qed.

Lemma clock_from_step t q k :
  clock_from (Py.fadd t q) q k = clock_from t q (S k).
Proof.
  unfold clock_from. symmetry.
  exact (Nat.iter_succ_r k (fun t => Py.fadd t q) t).
Qed.

(** The data rows: one line is written per row, the [k]-th with frame
    number and time advanced [k] times. *)
Lemma run_data post : forall s s' half,
  Forall (fun i => is_marker i = false) post ->
  data_flag s = true -> dataset_half s = Some half ->
  run total_rows s post = (s', None) ->
  exists rows,
    out s' = out s ++ rows /\ length rows = length post /\
    forall (k : nat) line,
      post !! k = Some line ->
      exists text,
        data_row (frame_number s + Z.of_nat k) half
                 (clock_from (time s) (quant s) k) line = Ok text
        /\ rows !! k = Some text.
Proof.
  induction post as [|i post IH]; intros s s' half Hpost Hf Hh Hrun.
  - injection Hrun as <-. exists []. rewrite app_nil_r.
    repeat split. intros k line Hk. discriminate Hk.
  - apply Forall_cons in Hpost as [Hi Hpost]. simpl in Hrun.
    destruct (step total_rows s i) as [s1|] eqn:E; [|discriminate].
    apply (step_data _ _ _ half Hi Hf Hh) in E
      as (text & Hrow & Ho & _ & _ & Ht & Hq & Hd & Hn & Hdh).
    destruct (IH s1 s' half Hpost Hd Hdh Hrun) as (rows & Ho' & Hlen & Hrows).
    exists (text :: rows). repeat split.
    + rewrite Ho', Ho, <- app_assoc. reflexivity.
    + simpl. now rewrite Hlen.
    + intros [|k] line Hk.
      * injection Hk as <-. exists text. rewrite Z.add_0_r. now split.
      * simpl in Hk. destruct (Hrows k line Hk) as (tx & Htx & Hlk).
        exists tx. split; [|exact Hlk].
        rewrite Hn, Ht, Hq, clock_from_step in Htx.
        now replace (frame_number s + Z.of_nat (S k))
          with (frame_number s + 1 + Z.of_nat k) by lia.
Qed.

End Loop.

(** ** The converted file *)

Lemma convert_run filename line_data :
  out (fst (convert filename line_data))
    = out (fst (run (Z.of_nat (length line_data)) (init filename) line_data))
  /\ snd (convert filename line_data)
    = snd (run (Z.of_nat (length line_data)) (init filename) line_data).
Proof.
  unfold convert. destruct (run _ _ _) as [s [e|]]; split; reflexivity.
Qed.

(** The state in which the loop reaches the data rows of a file whose
    header [pre] is scanned without error and ends with the marker [mk]. *)
Lemma run_to_marker total filename pre mk :
  Forall (fun i => is_marker i = false) pre ->
  is_marker mk = true ->
  Forall (fun i => frequency_line_ok i = true) pre ->
  exists s2,
    run total (init filename) (pre ++ [mk]) = (s2, None) /\
    out s2 = preamble filename (total - Z.of_nat (length (pre ++ [mk])))
               (Z.of_nat (length (Py.split mk)) + 1 + 9) /\
    time s2 = c_0_0 /\ frame_number s2 = 0 /\ data_flag s2 = true /\
    quant s2 = from_option quant_of c_0_0 (last_frequency None pre) /\
    dataset_half s2 = Some ((total - Z.of_nat (length (pre ++ [mk]))) `div` 2).
Proof.
  intros Hpre Hmk Hfr.
  destruct (run_header_ok total pre (init filename) Hpre Hfr eq_refl) as [s1 H1].
  destruct (run_header total pre (init filename) s1 None Hpre eq_refl H1)
    as (Ho & _ & Hh & Ht & _ & Hn & _ & Hq).
  destruct (step_marker total s1 mk Hmk)
    as (s2 & E & Ho2 & _ & Ht2 & Hq2 & Hd2 & Hn2 & Hdh2).
  exists s2. rewrite run_app, H1. simpl. rewrite E.
  assert (Hl : header_rows s1 + 1 = Z.of_nat (length (pre ++ [mk]))).
  { rewrite Hh, length_app. simpl. lia. }
  rewrite Hl in Ho2, Hdh2.
  split; [reflexivity|].
  split; [rewrite Ho2, Ho; reflexivity|].
  split; [rewrite Ht2, Ht; reflexivity|].
  split; [rewrite Hn2, Hn; reflexivity|]. split; [assumption|].
  split; [|assumption].
  rewrite Hq2. now apply Hq.
Qed.

Lemma total_minus_header {A : Type} (pre post : list A) (mk : A) :
  Z.of_nat (length (pre ++ mk :: post)) - Z.of_nat (length (pre ++ [mk]))
  = Z.of_nat (length post).
Proof. rewrite !length_app. simpl. lia. Qed.

Lemma run_success_header_ok total pre : forall s s',
  Forall (fun i => is_marker i = false) pre ->
  data_flag s = false ->
  run total s pre = (s', None) ->
  Forall (fun i => frequency_line_ok i = true) pre.
Proof.
  induction pre as [|i pre IH]; intros s s' Hpre Hf Hrun; [constructor|].
  apply Forall_cons in Hpre as [Hi Hpre]. simpl in Hrun.
  destruct (step total s i) as [s1|] eqn:E; [|discriminate].
  constructor.
  - unfold frequency_line_ok. unfold step in E.
    destruct (scan_frequency _ i) eqn:E1; [|discriminate].
    erewrite <- scan_frequency_any. now rewrite E1.
  - apply (step_header _ _ _ _ Hi Hf) in E as (_ & _ & _ & _ & Hd & _).
    now apply (IH s1 s').
Qed.

(** The whole output of a successful conversion of a file with one marker
    line: the preamble, then one line per data row. *)
Lemma convert_structure filename pre mk post s :
  Forall (fun i => is_marker i = false) pre ->
  is_marker mk = true ->
  Forall (fun i => is_marker i = false) post ->
  convert filename (pre ++ mk :: post) = (s, None) ->
  exists rows,
    out s = preamble filename (Z.of_nat (length post))
              (Z.of_nat (length (Py.split mk)) + 1 + 9) ++ rows
    /\ length rows = length post
    /\ forall (k : nat) line,
         post !! k = Some line ->
         exists text,
           data_row (Z.of_nat k) (Z.of_nat (length post) `div` 2)
             (clock (from_option quant_of c_0_0 (last_frequency None pre)) k) line
           = Ok text
           /\ rows !! k = Some text.
Proof.
  intros Hpre Hmk Hpost Hc.
  pose proof (convert_run filename (pre ++ mk :: post)) as [Ho He].
  rewrite Hc in Ho, He. simpl in Ho, He.
  set (total := Z.of_nat (length (pre ++ mk :: post))) in *.
  destruct (run total (init filename) (pre ++ mk :: post)) as [s' e] eqn:Hrun.
  simpl in Ho, He. subst e.
  replace (pre ++ mk :: post) with ((pre ++ [mk]) ++ post) in Hrun
    by (now rewrite <- app_assoc).
  rewrite run_app in Hrun.
  assert (Hfr : Forall (fun i => frequency_line_ok i = true) pre).
  { rewrite run_app in Hrun.
    destruct (run total (init filename) pre) as [s1 [e1|]] eqn:H1;
      [discriminate|].
    exact (run_success_header_ok total pre (init filename) s1 Hpre eq_refl H1). }
  destruct (run_to_marker total filename pre mk Hpre Hmk Hfr)
    as (s2 & H2 & Ho2 & Ht2 & Hn2 & Hd2 & Hq2 & Hdh2).
  rewrite H2 in Hrun.
  unfold total in Ho2, Hdh2. rewrite total_minus_header in Ho2, Hdh2.
  destruct (run_data total post s2 s' _ Hpost Hd2 Hdh2 Hrun)
    as (rows & Hor & Hlen & Hrows).
  exists rows. repeat split; [congruence | assumption |].
  intros k line Hk. destruct (Hrows k line Hk) as (text & Htx & Hlk).
  exists text. split; [|exact Hlk].
  now rewrite Hn2, Ht2, Hq2 in Htx.
Qed.
